(** * QuickStats: the debt list widget and its payment dialog

    A shallow embedding of [client/src/components/dashboard/quick-stats.tsx].

    The component is a React function component.  Its local state becomes a
    record, its event handlers become functions from a state to a new state
    and the list of effects they issue (notifications, the payment request,
    cache invalidations), and what it renders becomes a view computed from
    the state and the fetched customers.

    JavaScript values are modelled as the code uses them:
    - a [number] is an IEEE 754 binary64 value (module [JsNumber]);
    - a string is a [string] of bytes (UTF-8);
    - [string | null | undefined] is [option string]. *)

From Stdlib Require Import ZArith List String Ascii Bool Lia DecimalString.
From Stdlib Require Import Permutation Sorted.
From Stdlib Require DecimalPos DecimalN.
Import ListNotations.

Local Open Scope string_scope.
Local Open Scope Z_scope.

(* ===================================================================== *)
(** ** JavaScript numbers *)
(* ===================================================================== *)

Module JsNumber.

(** Every finite binary64 value is an integer multiple of the smallest
    subnormal, [2^-1074].  [Fin n] is the value [n * 2^-1074].  The two
    zeros are identified: no operation the component uses ([<], [<=], [>=],
    [+], [-], [toFixed], truthiness) tells them apart. *)
Inductive number : Type :=
  | NaN : number
  | Infinity (negative : bool) : number
  | Fin (units : Z) : number.

Definition unit_exp : Z := 1074.

(** The integer [n] as a number (exact while [|n| <= 2^53]). *)
Definition of_int (n : Z) : number := Fin (n * 2 ^ unit_exp).

Definition zero : number := Fin 0.

(** First magnitude, in units, that no longer rounds to a finite value:
    [2^1024] is [2^2098] units. *)
Definition overflow_units : Z := 2 ^ 2098.

(** Nearest integer to [num / den], ties to even ([0 <= num], [0 < den]). *)
Definition div_nearest_even (num den : Z) : Z :=
  let q := num / den in
  let r := num mod den in
  match 2 * r ?= den with
  | Lt => q
  | Gt => q + 1
  | Eq => if Z.even q then q else q + 1
  end.

(** Round the non-negative rational [num / den] (in units) to the nearest
    binary64 magnitude, ties to even.  Below [2^53] units the grid step is
    one unit (subnormals and the first binade); from there on a value with
    [2^L <= v < 2^(L+1)] lies on a grid of step [2^(L-52)]. *)
Definition round_ratio (num den : Z) : number :=
  let q := num / den in
  let k := Z.max 0 (Z.log2 q - 52) in
  let n := div_nearest_even num (den * 2 ^ k) * 2 ^ k in
  if n <? overflow_units then Fin n else Infinity false.

Definition with_sign (negative : bool) (x : number) : number :=
  match x with
  | NaN => NaN
  | Infinity _ => Infinity negative
  | Fin n => Fin (if negative then - n else n)
  end.

(** Rounding of an exact integer number of units: the result of [+] and [-]
    on finite operands. *)
Definition round64 (z : Z) : number :=
  with_sign (z <? 0) (round_ratio (Z.abs z) 1).

Definition neg (x : number) : number :=
  match x with
  | NaN => NaN
  | Infinity s => Infinity (negb s)
  | Fin n => Fin (- n)
  end.

(** [x + y] *)
Definition add (x y : number) : number :=
  match x, y with
  | NaN, _ | _, NaN => NaN
  | Infinity a, Infinity b => if Bool.eqb a b then Infinity a else NaN
  | Infinity a, Fin _ => Infinity a
  | Fin _, Infinity b => Infinity b
  | Fin a, Fin b => round64 (a + b)
  end.

(** [x - y] *)
Definition sub (x y : number) : number := add x (neg y).

Definition isNaN (x : number) : bool :=
  match x with NaN => true | _ => false end.

(** [x < y]; every comparison with [NaN] is false. *)
Definition lt (x y : number) : bool :=
  match x, y with
  | NaN, _ | _, NaN => false
  | Infinity a, Infinity b => a && negb b
  | Infinity a, Fin _ => a
  | Fin _, Infinity b => negb b
  | Fin a, Fin b => a <? b
  end.

(** [x <= y] *)
Definition le (x y : number) : bool :=
  match x, y with
  | NaN, _ | _, NaN => false
  | Infinity a, Infinity b => a || negb b
  | Infinity a, Fin _ => a
  | Fin _, Infinity b => negb b
  | Fin a, Fin b => a <=? b
  end.

(** [x > y] and [x >= y] *)
Definition gt (x y : number) : bool := lt y x.
Definition ge (x y : number) : bool := le y x.

(** ToBoolean of a number: false for [0] and [NaN]. *)
Definition truthy (x : number) : bool :=
  match x with
  | NaN => false
  | Infinity _ => true
  | Fin n => negb (n =? 0)
  end.

(** *** parseFloat *)

Definition is_digit (c : ascii) : bool :=
  let n := nat_of_ascii c in (48 <=? n)%nat && (n <=? 57)%nat.

Definition digit_val (c : ascii) : Z := Z.of_nat (nat_of_ascii c) - 48.

(** Reads a run of decimal digits: the value accumulated on [acc], how many
    digits were read, and the rest of the string. *)
Fixpoint read_digits (s : string) (acc : Z) (count : Z) : Z * Z * string :=
  match s with
  | String c rest =>
      if is_digit c then read_digits rest (10 * acc + digit_val c) (count + 1)
      else (acc, count, s)
  | EmptyString => (acc, count, s)
  end.

Definition starts_with (p s : string) : bool := String.prefix p s.

Definition drop (n : nat) (s : string) : string :=
  String.substring n (String.length s - n) s.

(** StrWhiteSpaceChar, on the UTF-8 encoding: how many leading bytes of [s]
    form one white space or line terminator character (0 when none). *)
Definition white_space_bytes (s : string) : nat :=
  match s with
  | String c rest =>
      let n := nat_of_ascii c in
      if ((9 <=? n) && (n <=? 13) || (n =? 32))%nat then 1%nat
      else if (n =? 194)%nat then                       (* U+00A0 *)
        match rest with
        | String d _ => if (nat_of_ascii d =? 160)%nat then 2%nat else 0%nat
        | _ => 0%nat
        end
      else
        match rest with
        | String d (String e _) =>
            let d := nat_of_ascii d in
            let e := nat_of_ascii e in
            if (n =? 225)%nat then                      (* U+1680 *)
              if ((d =? 154) && (e =? 128))%nat then 3%nat else 0%nat
            else if (n =? 226)%nat then
              if ((d =? 128) && ((128 <=? e) && (e <=? 138)    (* U+2000..200A *)
                                 || (e =? 168) || (e =? 169)  (* U+2028, U+2029 *)
                                 || (e =? 175)))%nat          (* U+202F *)
              then 3%nat
              else if ((d =? 129) && (e =? 159))%nat then 3%nat (* U+205F *)
              else 0%nat
            else if (n =? 227)%nat then                 (* U+3000 *)
              if ((d =? 128) && (e =? 128))%nat then 3%nat else 0%nat
            else if (n =? 239)%nat then                 (* U+FEFF *)
              if ((d =? 187) && (e =? 191))%nat then 3%nat else 0%nat
            else 0%nat
        | _ => 0%nat
        end
  | EmptyString => 0%nat
  end.

(** Drops leading white space; [fuel] bounds the number of characters. *)
Fixpoint trim_start_fuel (fuel : nat) (s : string) : string :=
  match fuel with
  | O => s
  | S fuel' =>
      match white_space_bytes s with
      | O => s
      | n => trim_start_fuel fuel' (drop n s)
      end
  end.

Definition trim_start (s : string) : string :=
  trim_start_fuel (String.length s) s.

(** ExponentPart: [e] or [E], an optional sign and at least one digit.  The
    decimal exponent read, or [0] when no exponent part can be read. *)
Definition read_exponent (s : string) : Z :=
  match s with
  | String c rest =>
      if (Ascii.eqb c "e" || Ascii.eqb c "E")%char then
        let '(negative, digits) :=
          match rest with
          | String "-"%char r => (true, r)
          | String "+"%char r => (false, r)
          | _ => (false, rest)
          end in
        let '(v, count, _) := read_digits digits 0 0 in
        if count =? 0 then 0 else if negative then - v else v
      else 0
  | EmptyString => 0
  end.

(** The exact decimal value [m * 10^e] rounded to a number. *)
Definition of_decimal (negative : bool) (m e : Z) : number :=
  with_sign negative
    (if 0 <=? e then round_ratio (m * 10 ^ e * 2 ^ unit_exp) 1
     else round_ratio (m * 2 ^ unit_exp) (10 ^ (- e))).

(** The longest prefix that is a StrUnsignedDecimalLiteral, as a number. *)
Definition parse_unsigned (negative : bool) (s : string) : number :=
  if starts_with "Infinity" s then Infinity negative
  else
    let '(vi, ni, r1) := read_digits s 0 0 in
    match r1 with
    | String "."%char r1' =>
        let '(vf, nf, r2) := read_digits r1' vi 0 in
        if (ni =? 0) && (nf =? 0) then NaN
        else of_decimal negative vf (read_exponent r2 - nf)
    | _ =>
        if ni =? 0 then NaN
        else of_decimal negative vi (read_exponent r1)
    end.

(** [parseFloat(s)] *)
Definition parseFloat (s : string) : number :=
  match trim_start s with
  | String "-"%char rest => parse_unsigned true rest
  | String "+"%char rest => parse_unsigned false rest
  | t => parse_unsigned false t
  end.

(** *** Number.prototype.toFixed *)

Definition dec_string (n : Z) : string :=
  NilZero.string_of_uint (N.to_uint (Z.to_N n)).

Fixpoint zeros (n : nat) : string :=
  match n with O => "" | S n' => String "0" (zeros n') end.

(** The decimal digits of [n], padded on the left to at least [len]. *)
Definition pad_left (len : nat) (s : string) : string :=
  zeros (len - String.length s) ++ s.

(** Number of decimal digits of [n > 0]. *)
Definition dec_length (n : Z) : Z := Z.of_nat (String.length (dec_string n)).

Fixpoint strip_trailing_zeros (s : string) : string :=
  match s with
  | EmptyString => EmptyString
  | String c rest =>
      match strip_trailing_zeros rest with
      | EmptyString => if Ascii.eqb c "0" then EmptyString else String c EmptyString
      | r => String c r
      end
  end.

(** Scientific notation of the decimal integer [d > 0], as Number::toString
    writes a value of at least [10^21]. *)
Definition exponential_string (d : Z) : string :=
  let all := dec_string d in
  let e := dec_string (dec_length d - 1) in
  match strip_trailing_zeros all with
  | String c EmptyString => String c ("e+" ++ e)
  | String c rest => String c ("." ++ rest ++ "e+" ++ e)
  | EmptyString => "0"
  end.

(** Shortest decimal with [k] digits or more that reads back as [Fin n]:
    for each [k] the two multiples of [10^(len-k)] around the value are
    tried, the nearer one first. *)
Fixpoint shortest_decimal (fuel : nat) (k : Z) (n : Z) : Z :=
  let v := n / 2 ^ unit_exp in
  let scale := 10 ^ (dec_length v - k) in
  let lo := v / scale * scale in
  let hi := lo + scale in
  let back d := match round64 (d * 2 ^ unit_exp) with
                | Fin n' => n' =? n
                | _ => false
                end in
  let '(first, second) :=
    if (n - lo * 2 ^ unit_exp <=? hi * 2 ^ unit_exp - n) then (lo, hi) else (hi, lo) in
  match fuel with
  | O => first
  | S fuel' =>
      if back first then first
      else if back second then second
      else shortest_decimal fuel' (k + 1) n
  end.

(** Number::toString for a value of at least [10^21]. *)
Definition large_toString (n : Z) : string :=
  exponential_string (shortest_decimal 17 1 n).

(** [x.toFixed(fd)] *)
Definition toFixed (fd : nat) (x : number) : string :=
  match x with
  | NaN => "NaN"
  | Infinity negative => if negative then "-Infinity" else "Infinity"
  | Fin z =>
      let sign := if z <? 0 then "-" else "" in
      let a := Z.abs z in
      if 10 ^ 21 * 2 ^ unit_exp <=? a then sign ++ large_toString a
      else
        (* the integer n with n / 10^fd nearest to the value, the larger
           one on a tie *)
        let n := (2 * a * 10 ^ Z.of_nat fd + 2 ^ unit_exp) / 2 ^ (unit_exp + 1) in
        let m := pad_left (fd + 1) (dec_string n) in
        let int_len := (String.length m - fd)%nat in
        match fd with
        | O => sign ++ m
        | _ => sign ++ String.substring 0 int_len m ++ "." ++ String.substring int_len fd m
        end
  end.

End JsNumber.

(* ===================================================================== *)
(** ** Dates *)
(* ===================================================================== *)

Module JsDate.
Import JsNumber.

(** [new Date(s).getTime()] is [Date.parse(s)].  ECMAScript fixes the
    result for its date-time string format and for strings no format
    recognises ([NaN]); other formats are left to the implementation.  This
    is an implementation with no format of its own, and whose local time
    zone is UTC. *)

(** Reads exactly [n] decimal digits. *)
Fixpoint read_fixed (n : nat) (s : string) (acc : Z) : option (Z * string) :=
  match n with
  | O => Some (acc, s)
  | S n' =>
      match s with
      | String c rest =>
          if is_digit c then read_fixed n' rest (10 * acc + digit_val c)
          else None
      | EmptyString => None
      end
  end.

Definition is_leap (y : Z) : bool :=
  ((y mod 4 =? 0) && negb (y mod 100 =? 0)) || (y mod 400 =? 0).

Definition days_in_month (y m : Z) : Z :=
  if m =? 2 then (if is_leap y then 29 else 28)
  else if (m =? 4) || (m =? 6) || (m =? 9) || (m =? 11) then 30
  else 31.

(** Days from 1970-01-01 to the given day of the proleptic Gregorian
    calendar. *)
Definition days_from_civil (y m d : Z) : Z :=
  let y' := if m <=? 2 then y - 1 else y in
  let era := y' / 400 in
  let yoe := y' - era * 400 in
  let doy := (153 * (if 2 <? m then m - 3 else m + 9) + 2) / 5 + d - 1 in
  let doe := yoe * 365 + yoe / 4 - yoe / 100 + doy in
  era * 146097 + doe - 719468.

Definition ms_per_day : Z := 86400000.

(** TimeClip *)
Definition time_clip (t : Z) : number :=
  if Z.abs t <=? 8640000000000000 then of_int t else NaN.

(** Year: [YYYY], or a sign and six digits (not [-000000]). *)
Definition read_year (s : string) : option (Z * string) :=
  match s with
  | String "+"%char rest => read_fixed 6 rest 0
  | String "-"%char rest =>
      match read_fixed 6 rest 0 with
      | Some (y, r) => if y =? 0 then None else Some (- y, r)
      | None => None
      end
  | _ => read_fixed 4 s 0
  end.

(** An optional [sep] and two digits; [default] when [s] does not start
    with [sep]. *)
Definition read_part (sep : ascii) (default : Z) (s : string)
  : option (bool * Z * string) :=
  match s with
  | String c rest =>
      if Ascii.eqb c sep then
        match read_fixed 2 rest 0 with
        | Some (v, r) => Some (true, v, r)
        | None => None
        end
      else Some (false, default, s)
  | EmptyString => Some (false, default, s)
  end.

(** UTC offset in minutes: [Z] or [+HH:mm] or [-HH:mm]; the empty string is
    the local time zone. *)
Definition read_offset (s : string) : option Z :=
  match s with
  | EmptyString => Some 0
  | String "Z"%char EmptyString => Some 0
  | String c rest =>
      if (Ascii.eqb c "+" || Ascii.eqb c "-")%char then
        match read_fixed 2 rest 0 with
        | Some (h, String ":"%char r) =>
            match read_fixed 2 r 0 with
            | Some (m, EmptyString) =>
                if (h <=? 23) && (m <=? 59) then
                  Some (if Ascii.eqb c "-" then - (h * 60 + m) else h * 60 + m)
                else None
            | _ => None
            end
        | _ => None
        end
      else None
  end.

(** The time of day after [T]: [HH:mm], [HH:mm:ss] or [HH:mm:ss.sss], and
    the offset; milliseconds to add to the day. *)
Definition read_time (s : string) : option Z :=
  match read_fixed 2 s 0 with
  | Some (h, String ":"%char r) =>
      match read_fixed 2 r 0 with
      | Some (mi, r1) =>
          match read_part ":" 0 r1 with
          | Some (has_sec, sec, r2) =>
              let ms_part :=
                match r2 with
                | String "."%char r3 =>
                    if has_sec then
                      match read_fixed 3 r3 0 with
                      | Some (ms, r4) => Some (ms, r4)
                      | None => None
                      end
                    else None
                | _ => Some (0, r2)
                end in
              match ms_part with
              | Some (ms, r4) =>
                  match read_offset r4 with
                  | Some off =>
                      if ((h <=? 23) && (mi <=? 59) && (sec <=? 59))
                         || ((h =? 24) && (mi =? 0) && (sec =? 0) && (ms =? 0))
                      then Some (((h * 60 + mi - off) * 60 + sec) * 1000 + ms)
                      else None
                  | None => None
                  end
              | None => None
              end
          | None => None
          end
      | None => None
      end
  | _ => None
  end.

(** [Date.parse(s)] *)
Definition parse (s : string) : number :=
  match read_year s with
  | Some (y, r) =>
      match read_part "-" 1 r with
      | Some (has_month, m, r1) =>
          match (if has_month then read_part "-" 1 r1 else Some (false, 1, r1)) with
          | Some (_, d, r2) =>
              if (1 <=? m) && (m <=? 12) && (1 <=? d) && (d <=? days_in_month y m) then
                let day := days_from_civil y m d * ms_per_day in
                match r2 with
                | EmptyString => time_clip day
                | String "T"%char r3 =>
                    match read_time r3 with
                    | Some t => time_clip (day + t)
                    | None => NaN
                    end
                | _ => NaN
                end
              else NaN
          | None => NaN
          end
      | None => NaN
      end
  | None => NaN
  end.

(** [new Date(s).getTime()] *)
Definition getTime (s : string) : number := parse s.

End JsDate.

(* ===================================================================== *)
(** ** Array.prototype.sort *)
(* ===================================================================== *)

Module JsArray.
Import JsNumber.

Section Sort.
Context {A : Type}.
Variable comparefn : A -> A -> number.

(** SortCompare reads a [NaN] result of [comparefn] as [+0]; [x] stays
    before [y] unless the result is positive. *)
Definition keeps_before (x y : A) : bool :=
  negb (gt (comparefn x y) zero).

Fixpoint insert (x : A) (l : list A) : list A :=
  match l with
  | [] => [x]
  | y :: l' => if keeps_before x y then x :: l else y :: insert x l'
  end.

(** [l.sort(comparefn)]: the sort is stable, and is written here as the
    stable insertion sort.  (For a comparator that is not consistent the
    language leaves the order to the implementation.) *)
Definition sort (l : list A) : list A := fold_right insert [] l.
End Sort.

End JsArray.

(* ===================================================================== *)
(** ** The component *)
(* ===================================================================== *)

Module QuickStats.
Import JsNumber.

(** Modelled from the spec: the [Customer] type of [@shared/schema], which
    the component imports; its fields as the spec's data model lists them
    (the timestamp as the string the backend's JSON carries). *)
Record Customer : Type := mkCustomer {
  id : string;
  name : string;
  totalDebt : option string;
  createdAt : option string
}.

Inductive SortOrder : Type := newest | highest.

(** The component's [useState] cells, and [paymentMutation.isPending]. *)
Record State : Type := mkState {
  sortOrder : SortOrder;
  showPaymentModal : bool;
  selectedCustomer : option Customer;
  paymentAmount : string;
  isPending : bool
}.

(** [useState] initial values; the mutation starts idle. *)
Definition initial : State := mkState highest false None "" false.

(** Body of the payment request: [{ amount, currency }]. *)
Record PaymentBody : Type := mkBody {
  amount : number;
  body_currency : string
}.

(** Modelled from the spec: the JSON body of a successful payment response,
    [newDebt: number], optional (external interface of the backend). *)
Record PaymentData : Type := mkData {
  newDebt : option number
}.

(** What the handlers do to the outside. *)
Inductive Effect : Type :=
  | Toast (title description : string) (variant : option string)
  | ApiRequest (method url : string) (body : PaymentBody)
  | InvalidateQueries (queryKey : list string)
  | RefetchQueries (queryKey : list string).

(** A handler body: state updates queued for the next render, and effects
    in the order they are issued.  The values a handler reads are those of
    the render that created it, passed to it as a [State]. *)
Definition Cmd : Type := State -> State * list Effect.

Definition skip : Cmd := fun s => (s, []).

Definition seq (c1 c2 : Cmd) : Cmd :=
  fun s =>
    let '(s1, e1) := c1 s in
    let '(s2, e2) := c2 s1 in
    (s2, (e1 ++ e2)%list).

Notation "c1 ;; c2" := (seq c1 c2) (at level 61, right associativity).

Definition emit (e : Effect) : Cmd := fun s => (s, [e]).

Definition setSortOrder (v : SortOrder) : Cmd :=
  fun s => (mkState v (showPaymentModal s) (selectedCustomer s) (paymentAmount s) (isPending s), []).
Definition setShowPaymentModal (v : bool) : Cmd :=
  fun s => (mkState (sortOrder s) v (selectedCustomer s) (paymentAmount s) (isPending s), []).
Definition setSelectedCustomer (v : option Customer) : Cmd :=
  fun s => (mkState (sortOrder s) (showPaymentModal s) v (paymentAmount s) (isPending s), []).
Definition setPaymentAmount (v : string) : Cmd :=
  fun s => (mkState (sortOrder s) (showPaymentModal s) (selectedCustomer s) v (isPending s), []).
Definition setPending (v : bool) : Cmd :=
  fun s => (mkState (sortOrder s) (showPaymentModal s) (selectedCustomer s) (paymentAmount s) v, []).

(** An event runs the handler of the current render on the current state. *)
Definition fire (handler : State -> Cmd) (s : State) : State * list Effect :=
  handler s s.

(** Truthiness of a [string | null | undefined]. *)
Definition truthy_string (s : option string) : bool :=
  match s with
  | Some t => negb (t =? "")%string
  | None => false
  end.

(** [s ?? d] *)
Definition or_default (s : option string) (d : string) : string :=
  match s with Some t => t | None => d end.

(** *** The debtor list *)

Definition is_debtor (customer : Customer) : bool :=
  match totalDebt customer with
  | Some t => negb (t =? "")%string && gt (parseFloat t) zero
  | None => false
  end.

Definition compare_debtors (order : SortOrder) (a b : Customer) : number :=
  match order with
  | highest =>
      sub (parseFloat (or_default (totalDebt b) "0"))
          (parseFloat (or_default (totalDebt a) "0"))
  | newest =>
      sub (JsDate.getTime (or_default (createdAt b) ""))
          (JsDate.getTime (or_default (createdAt a) ""))
  end.

Definition debtorCustomers (order : SortOrder) (customers : list Customer)
  : list Customer :=
  JsArray.sort (compare_debtors order) (filter is_debtor customers).

(** *** The payment mutation *)

Definition customers_key : list string := ["/api/customers"].
Definition transactions_key : list string := ["/api/transactions"].

Definition destructive : option string := Some "destructive".

(** [data.newDebt || 0] *)
Definition newDebt_or_zero (data : PaymentData) : number :=
  match newDebt data with
  | Some x => if truthy x then x else zero
  | None => zero
  end.

Definition success_description (currency paid : string) (data : PaymentData) : string :=
  "تم دفع " ++ paid ++ " " ++ currency ++ ". الرصيد المتبقي: "
    ++ toFixed 2 (newDebt_or_zero data) ++ " " ++ currency.

Definition onSuccess (currency : string) (r : State) (data : PaymentData) : Cmd :=
  emit (InvalidateQueries customers_key) ;;
  emit (InvalidateQueries transactions_key) ;;
  emit (RefetchQueries customers_key) ;;
  emit (Toast "تم السداد بنجاح" (success_description currency (paymentAmount r) data) None) ;;
  setShowPaymentModal false ;;
  setSelectedCustomer None ;;
  setPaymentAmount "".

Definition onError : Cmd :=
  emit (Toast "خطأ في السداد" "فشل في معالجة السداد" destructive).

(** The request [mutationFn] sends. *)
Definition payment_request (currency customerId : string) (amount : number) : Effect :=
  ApiRequest "POST" ("/api/customers/" ++ customerId ++ "/payment")
             (mkBody amount currency).

(** [paymentMutation.mutate({ customerId, amount })]: the mutation becomes
    pending and [mutationFn] sends its request. *)
Definition mutate (currency customerId : string) (amount : number) : Cmd :=
  setPending true ;;
  emit (payment_request currency customerId amount).

(** How the request ends: [apiRequest] throws, or it returns a response
    with its [ok] flag and what [response.json()] gives ([None] when it
    rejects). *)
Inductive ApiOutcome : Type :=
  | Threw
  | Response (ok : bool) (json : option PaymentData).

(** The rest of [mutationFn]: the data it resolves to, [None] when it
    throws. *)
Definition mutationFn_result (o : ApiOutcome) : option PaymentData :=
  match o with
  | Threw => None
  | Response ok json => if negb ok then None else json
  end.

(** The mutation settles: the matching callback runs and the mutation is
    no longer pending. *)
Definition settle (currency : string) (o : ApiOutcome) (r : State) : Cmd :=
  match mutationFn_result o with
  | Some data => onSuccess currency r data
  | None => onError
  end ;;
  setPending false.

(** *** Handlers *)

Definition validation_toast : Effect :=
  Toast "خطأ" "يجب أن يكون المبلغ أكبر من صفر" destructive.

Definition handlePayment (currency : string) (r : State) : Cmd :=
  match selectedCustomer r with
  | None => skip
  | Some customer =>
      if (paymentAmount r =? "")%string then skip
      else
        let amount := parseFloat (paymentAmount r) in
        if le amount zero then emit validation_toast
        else mutate currency (id customer) amount
  end.

Definition openPaymentModal (customer : Customer) : Cmd :=
  setSelectedCustomer (Some customer) ;;
  setPaymentAmount "" ;;
  setShowPaymentModal true.

(** [onChange] of the amount field. *)
Definition changeAmount (value : string) : Cmd := setPaymentAmount value.

(** [onClick] of the cancel button. *)
Definition cancelPayment : Cmd := setShowPaymentModal false.

(** [onOpenChange] of the dialog. *)
Definition onOpenChange (open : bool) : Cmd := setShowPaymentModal open.

(** [onValueChange] of the sort selector. *)
Definition changeSortOrder (value : SortOrder) : Cmd := setSortOrder value.

Definition formatDebt (debt : option string) : string :=
  if negb (truthy_string debt) then "0.00"
  else
    let debtNumber := parseFloat (or_default debt "") in
    if isNaN debtNumber then "0.00"
    else toFixed 2 debtNumber.

Definition getDebtColor (debt : option string) : string :=
  if negb (truthy_string debt) then "text-slate-500"
  else
    let debtNumber := parseFloat (or_default debt "") in
    if ge debtNumber (of_int 5000) then "text-red-600"
    else if ge debtNumber (of_int 1000) then "text-orange-600"
    else "text-yellow-600".

(** *** What is rendered *)

Record RowView : Type := mkRow {
  row_name : string;
  row_id_preview : string;
  row_amount : string;
  row_color : string;
  row_pay : Cmd
}.

Inductive ListView : Type :=
  | Placeholders (count : nat)
  | NoDebts
  | Rows (rows : list RowView).

Record FooterView : Type := mkFooter {
  debtor_count : nat;
  total_debts : string
}.

Record DialogBody : Type := mkDialogBody {
  customer_line : string;
  debt_line : string;
  input_value : string;
  input_max : option string;
  remaining_line : option string;
  confirm_disabled : bool;
  confirm_label : string;
  cancel_disabled : bool
}.

Record View : Type := mkView {
  list_view : ListView;
  footer : option FooterView;
  dialog_open : bool;
  dialog_body : option DialogBody
}.

Definition render_row (currency : string) (customer : Customer) : RowView :=
  mkRow (name customer)
        (String.substring 0 8 (id customer) ++ "...")
        (formatDebt (totalDebt customer) ++ " " ++ currency)
        (getDebtColor (totalDebt customer))
        (openPaymentModal customer).

Definition render_list (currency : string) (isLoading : bool)
    (debtors : list Customer) : ListView :=
  if isLoading then Placeholders 4
  else if (List.length debtors =? 0)%nat then NoDebts
  else Rows (map (render_row currency) debtors).

(** [debtors.reduce((sum, c) => sum + parseFloat(c.totalDebt ?? "0"), 0)] *)
Definition total_of (debtors : list Customer) : number :=
  fold_left (fun sum customer => add sum (parseFloat (or_default (totalDebt customer) "0")))
            debtors zero.

Definition render_footer (currency : string) (debtors : list Customer)
  : option FooterView :=
  if (0 <? List.length debtors)%nat then
    Some (mkFooter (List.length debtors)
                   (toFixed 2 (total_of debtors) ++ " " ++ currency))
  else None.

Definition busy_label : string := "جارٍ المعالجة...".
Definition confirm_text : string := "تأكيد السداد".

Definition render_dialog_body (currency : string) (s : State) : option DialogBody :=
  match selectedCustomer s with
  | None => None
  | Some customer =>
      Some (mkDialogBody
        ("العميل: " ++ name customer)
        ("إجمالي الدين: " ++ formatDebt (totalDebt customer) ++ " " ++ currency)
        (paymentAmount s)
        (if truthy_string (totalDebt customer) then totalDebt customer else None)
        (if (paymentAmount s =? "")%string then None
         else Some (toFixed 2 (sub (parseFloat (or_default (totalDebt customer) "0"))
                                   (parseFloat (if (paymentAmount s =? "")%string then "0"
                                                else paymentAmount s)))
                    ++ " " ++ currency))
        ((paymentAmount s =? "")%string || isPending s)
        (if isPending s then busy_label else confirm_text)
        (isPending s))
  end.

(** The component's output for the props, the query result ([customers]
    is [[]] until the data is there) and the state. *)
Definition render (currency : string) (customers : list Customer)
    (isLoading : bool) (s : State) : View :=
  let debtors := debtorCustomers (sortOrder s) customers in
  mkView (render_list currency isLoading debtors)
         (render_footer currency debtors)
         (showPaymentModal s)
         (render_dialog_body currency s).

End QuickStats.

(* ===================================================================== *)
(** ** The specification's words *)
(* ===================================================================== *)

Module Spec.
Import JsNumber QuickStats.

(** "totalDebt present and strictly greater than zero" *)
Definition has_positive_debt (customer : Customer) : bool :=
  match totalDebt customer with
  | Some t => gt (parseFloat t) zero
  | None => false
  end.

(** The parsed [totalDebt] of a record. *)
Definition debt_value (customer : Customer) : number :=
  parseFloat (or_default (totalDebt customer) "0").

(** The parsed [createdAt] of a record. *)
Definition timestamp (customer : Customer) : number :=
  JsDate.getTime (or_default (createdAt customer) "").

(** "unparsable/absent timestamps sort as epoch start" *)
Definition timestamp_or_epoch (customer : Customer) : number :=
  if isNaN (timestamp customer) then zero else timestamp customer.

(** A sequence whose [key] values are non-increasing. *)
Definition non_increasing {A : Type} (key : A -> number) (l : list A) : Prop :=
  Sorted (fun a b => ge (key a) (key b) = true) l.

(** "Unparsable debts contribute zero to the sum." *)
Definition parsed_or_zero (debt : option string) : number :=
  match debt with
  | Some t => if isNaN (parseFloat t) then zero else parseFloat t
  | None => zero
  end.

(** "sum of all debts", in list order. *)
Definition debt_sum (debtors : list Customer) : number :=
  fold_left (fun sum customer => add sum (parsed_or_zero (totalDebt customer)))
            debtors zero.

(** "formatted to two decimals": a text made of an integer part of one
    digit or more, a point and exactly two digits; the number of hundredths
    it writes. *)
Definition read_two_decimals (text : string) : option Z :=
  let '(whole, whole_digits, rest) := read_digits text 0 0 in
  match rest with
  | String "."%char fraction =>
      let '(hundredths, fraction_digits, rest') := read_digits fraction whole 0 in
      if (0 <? whole_digits) && (fraction_digits =? 2) && (rest' =? "")%string
      then Some hundredths
      else None
  | _ => None
  end.

(** [text] displays the non-negative number [x] to two decimal places: it
    writes a number of hundredths that is within half a hundredth of [x]. *)
Definition shows_two_decimals (x : number) (text : string) : Prop :=
  match x with
  | Fin z =>
      0 <= z /\
      exists hundredths,
        read_two_decimals text = Some hundredths
        /\ 2 * Z.abs (100 * z - hundredths * 2 ^ unit_exp) <= 2 ^ unit_exp
  | _ => False
  end.

(** A finite number below [10^21] in magnitude. *)
Definition below_1e21 (x : number) : Prop :=
  match x with
  | Fin z => Z.abs z < 10 ^ 21 * 2 ^ unit_exp
  | _ => False
  end.

End Spec.

(* ===================================================================== *)
(** ** Sample data *)
(* ===================================================================== *)

Module Samples.
Import JsNumber QuickStats.

(** The customer of the specification's scenarios. *)
Definition ali : Customer :=
  mkCustomer "abc123" "Ali" (Some "1500.00") (Some "2024-01-15T10:30:00.000Z").

(** The dialog open on [ali] with the amount ["500"] entered. *)
Definition paying_ali : State := mkState highest true (Some ali) "500" false.

(** The same while the request is in flight. *)
Definition paying_ali_pending : State := mkState highest true (Some ali) "500" true.

(** No customer selected, yet an amount in the field. *)
Definition nobody_selected : State := mkState highest true None "500" false.

(** Three debtors: two dated, one without [createdAt]. *)
Definition older : Customer :=
  mkCustomer "c-old" "Old" (Some "100") (Some "2024-01-01T00:00:00.000Z").
Definition undated : Customer :=
  mkCustomer "c-none" "Undated" (Some "200") None.
Definition newer : Customer :=
  mkCustomer "c-new" "New" (Some "300") (Some "2024-06-01T00:00:00.000Z").

(** A debt of a tenth of a cent. *)
Definition tiny_debtor : Customer :=
  mkCustomer "c-tiny" "Tiny" (Some "0.001") (Some "2024-01-01T00:00:00.000Z").

(** A settled customer whose debt is the string ["0"]. *)
Definition settled : Customer :=
  mkCustomer "c-zero" "Settled" (Some "0") (Some "2024-01-01T00:00:00.000Z").

Definition paid_1000 : PaymentData := mkData (Some (of_int 1000)).

(** A debt of [10^21]. *)
Definition huge_debtor : Customer :=
  mkCustomer "c-huge" "Huge" (Some "1e21") (Some "2024-01-01T00:00:00.000Z").

End Samples.

(* ===================================================================== *)
(** ** Facts about numbers *)
(* ===================================================================== *)

Import JsNumber.

Lemma div_nearest_even_lower (num den : Z) :
  num / den <= div_nearest_even num den.
Proof.
  unfold div_nearest_even.
  destruct (2 * (num mod den) ?= den); [destruct (Z.even (num / den))| |]; lia.
Qed.

Lemma grid_step_le (z : Z) :
  0 < z -> 0 < 2 ^ Z.max 0 (Z.log2 z - 52) <= z.
Proof.
  intros Hz.
  assert (Hk : 0 <= Z.max 0 (Z.log2 z - 52) <= Z.log2 z).
  { pose proof (Z.log2_nonneg z). lia. }
  split.
  - apply Z.pow_pos_nonneg; lia.
  - apply Z.le_trans with (2 ^ Z.log2 z).
    + apply Z.pow_le_mono_r; lia.
    + apply Z.log2_spec; assumption.
Qed.

(** Rounding a positive number of units never gives zero or a negative
    value. *)
Lemma round_ratio_pos (z : Z) :
  0 < z ->
  (exists n, round_ratio z 1 = Fin n /\ 0 < n) \/ round_ratio z 1 = Infinity false.
Proof.
  intros Hz. unfold round_ratio.
  rewrite Z.div_1_r, Z.mul_1_l.
  destruct (grid_step_le z Hz) as [Hpos Hle].
  set (step := 2 ^ Z.max 0 (Z.log2 z - 52)) in *.
  destruct (div_nearest_even z step * step <? overflow_units).
  - left. eexists; split; [reflexivity|].
    apply Z.mul_pos_pos; [|assumption].
    pose proof (div_nearest_even_lower z step).
    assert (0 < z / step) by (apply Z.div_str_pos; lia).
    lia.
  - right; reflexivity.
Qed.

Lemma round_ratio_zero : round_ratio 0 1 = Fin 0.
Proof. reflexivity. Qed.

(** The sign of a rounded sum or difference is the sign of the exact one. *)
Lemma round64_gt_zero (z : Z) : gt (round64 z) zero = (0 <? z).
Proof.
  unfold round64.
  destruct (Z.ltb_spec z 0) as [Hneg | Hnn].
  - destruct (round_ratio_pos (Z.abs z)) as [(n & -> & Hn) | ->]; [lia | |];
      cbn; [|destruct (Z.ltb_spec 0 z); [lia | reflexivity]].
    destruct (Z.ltb_spec 0 (- n)), (Z.ltb_spec 0 z); try lia; reflexivity.
  - destruct (Z.eq_dec z 0) as [-> | Hne]; [reflexivity|].
    destruct (round_ratio_pos (Z.abs z)) as [(n & -> & Hn) | ->]; [lia | |]; cbn.
    + destruct (Z.ltb_spec 0 n), (Z.ltb_spec 0 z); try lia; reflexivity.
    + destruct (Z.ltb_spec 0 z); [reflexivity | lia].
Qed.

(** For operands that are numbers, [y - x > 0] is [x < y]: the comparator
    idiom [b - a] orders as [<] does. *)
Lemma sub_gt_zero (x y : number) :
  isNaN x = false -> isNaN y = false ->
  gt (sub y x) zero = lt x y.
Proof.
  destruct x as [|a|a], y as [|b|b]; try discriminate; intros _ _.
  - destruct a, b; reflexivity.
  - destruct a; reflexivity.
  - destruct b; reflexivity.
  - unfold sub, neg, add. rewrite round64_gt_zero. unfold lt.
    destruct (Z.ltb_spec 0 (b + - a)), (Z.ltb_spec a b); try lia; reflexivity.
Qed.

Ltac by_cases_on_numbers :=
  repeat match goal with
         | x : number |- _ => destruct x as [|[]|?]
         end;
  unfold ge, gt, le, lt, isNaN; cbn;
  try discriminate; try reflexivity;
  rewrite ?Z.leb_le, ?Z.ltb_lt, ?Z.leb_gt, ?Z.ltb_ge; try lia.

Lemma lt_false_ge (x y : number) :
  isNaN x = false -> isNaN y = false -> lt x y = false -> ge x y = true.
Proof. revert x y. intros x y. by_cases_on_numbers. Qed.

Lemma lt_ge (x y : number) : lt x y = true -> ge y x = true.
Proof. by_cases_on_numbers. Qed.

Lemma ge_trans (x y z : number) :
  ge x y = true -> ge y z = true -> ge x z = true.
Proof. by_cases_on_numbers. Qed.

Lemma gt_zero_not_NaN (x : number) : gt x zero = true -> isNaN x = false.
Proof. destruct x; (discriminate || reflexivity). Qed.

Lemma parseFloat_empty : parseFloat "" = NaN.
Proof. reflexivity. Qed.

(** *** The shape of [toFixed(2)] *)

Lemma length_append (a b : string) :
  String.length (a ++ b) = (String.length a + String.length b)%nat.
Proof. induction a as [|c a IH]; cbn; [reflexivity | rewrite IH; reflexivity]. Qed.

Lemma length_zeros (n : nat) : String.length (zeros n) = n.
Proof. induction n as [|n IH]; cbn; [reflexivity | rewrite IH; reflexivity]. Qed.

Lemma length_substring (s : string) (n m : nat) :
  (n + m <= String.length s)%nat -> String.length (String.substring n m s) = m.
Proof.
  revert n m. induction s as [|c s IH]; intros n m H; cbn in H.
  - assert (n = 0%nat /\ m = 0%nat) as [-> ->] by lia. reflexivity.
  - destruct n as [|n]; cbn.
    + destruct m as [|m]; [reflexivity|]. cbn. rewrite (IH 0%nat m) by lia. reflexivity.
    + apply IH. lia.
Qed.

Lemma length_pad_left (len : nat) (s : string) :
  (len <= String.length (pad_left len s))%nat.
Proof. unfold pad_left. rewrite length_append, length_zeros. lia. Qed.

(** *** Reading back the digits [toFixed] writes *)

Ltac triple_eq H v c r :=
  pose proof (f_equal (fun p => fst (fst p)) H) as v;
  pose proof (f_equal (fun p => snd (fst p)) H) as c;
  pose proof (f_equal snd H) as r;
  cbn [fst snd] in v, c, r; clear H.

(** The digit count only adds up. *)
Lemma read_digits_shift (s : string) : forall acc cnt,
  read_digits s acc cnt
  = (let '(v, c, r) := read_digits s acc 0 in (v, cnt + c, r)).
Proof.
  induction s as [|ch s IH]; intros acc cnt; cbn [read_digits].
  - rewrite Z.add_0_r. reflexivity.
  - destruct (is_digit ch).
    + rewrite (IH _ (cnt + 1)), (IH _ (0 + 1)).
      destruct (read_digits s (10 * acc + digit_val ch) 0) as [[v c] r].
      f_equal. f_equal. lia.
    + rewrite Z.add_0_r. reflexivity.
Qed.

(** After a string [a] that is digits throughout, reading goes on with
    what follows. *)
Lemma read_digits_app (a r : string) : forall acc v,
  read_digits a acc 0 = (v, Z.of_nat (String.length a), "") ->
  read_digits (a ++ r) acc 0
  = (let '(v', c, r') := read_digits r v 0 in
     (v', Z.of_nat (String.length a) + c, r')).
Proof.
  induction a as [|ch a IH]; intros acc v H.
  - cbn in H. injection H as <-. cbn [append String.length Z.of_nat].
    destruct (read_digits r acc 0) as [[v' c] r']. reflexivity.
  - cbn [read_digits append] in *. destruct (is_digit ch); [|discriminate H].
    rewrite read_digits_shift in H. rewrite read_digits_shift.
    destruct (read_digits a (10 * acc + digit_val ch) 0) as [[v0 c0] r0] eqn:Ha.
    triple_eq H Hv Hc Hr. subst v0 r0.
    assert (Hc0 : c0 = Z.of_nat (String.length a)).
    { change (String.length (String ch a)) with (S (String.length a)) in Hc. lia. }
    subst c0. rewrite (IH _ _ Ha).
    destruct (read_digits r v 0) as [[v' c] r'].
    f_equal. f_equal.
    change (String.length (String ch a)) with (S (String.length a)). lia.
Qed.

(** A string of digits read in two parts. *)
Lemma read_digits_split (a b : string) : forall acc v,
  read_digits (a ++ b) acc 0 = (v, Z.of_nat (String.length (a ++ b)), "") ->
  exists w,
    read_digits a acc 0 = (w, Z.of_nat (String.length a), "")
    /\ read_digits b w 0 = (v, Z.of_nat (String.length b), "").
Proof.
  induction a as [|ch a IH]; intros acc v H.
  - exists acc. split; [reflexivity | exact H].
  - cbn [read_digits append] in *. destruct (is_digit ch); [|discriminate H].
    rewrite read_digits_shift in H.
    destruct (read_digits (a ++ b) (10 * acc + digit_val ch) 0)
      as [[v0 c0] r0] eqn:Hab.
    triple_eq H Hv Hc Hr. subst v0 r0.
    assert (Hc0 : c0 = Z.of_nat (String.length (a ++ b))).
    { change (String.length (String ch (a ++ b)))
        with (S (String.length (a ++ b))) in Hc.
      lia. }
    subst c0. destruct (IH _ _ Hab) as (w & Ha & Hb).
    exists w. split; [|exact Hb].
    rewrite read_digits_shift, Ha. f_equal. f_equal.
    change (String.length (String ch a)) with (S (String.length a)). lia.
Qed.

Lemma read_digits_zeros (n : nat) :
  read_digits (zeros n) 0 0 = (0, Z.of_nat n, "").
Proof.
  induction n as [|n IH]; [reflexivity|].
  cbn [zeros read_digits]. change (is_digit "0") with true. cbv iota.
  change (10 * 0 + digit_val "0") with 0.
  rewrite read_digits_shift, IH. f_equal. f_equal. lia.
Qed.

(** Reading back what the library's decimal printer writes: the value of
    the digits, most significant first. *)
Lemma read_digits_string_of_uint (d : Decimal.uint) : forall acc,
  read_digits (NilEmpty.string_of_uint d) acc 0
  = (acc * 10 ^ Z.of_N (DecimalPos.Unsigned.usize d)
       + Z.of_N (DecimalPos.Unsigned.of_lu (Decimal.rev d)),
     Z.of_nat (String.length (NilEmpty.string_of_uint d)), "").
Proof.
  induction d as [|d IH|d IH|d IH|d IH|d IH|d IH|d IH|d IH|d IH|d IH]; intros acc;
    [cbn; f_equal; f_equal; lia | ..];
    unfold Decimal.rev; cbn [Decimal.revapp];
    rewrite DecimalPos.Unsigned.of_lu_revapp;
    cbn [NilEmpty.string_of_uint read_digits];
    match goal with
    | |- context [is_digit ?c] => change (is_digit c) with true; cbv iota
    end;
    rewrite read_digits_shift, IH;
    cbn [DecimalPos.Unsigned.usize];
    rewrite N2Z.inj_add, N2Z.inj_mul, N2Z.inj_pow, N2Z.inj_succ;
    rewrite Z.pow_succ_r by apply N2Z.is_nonneg;
    change (String.length (String ?c ?s)) with (S (String.length s));
    match goal with
    | |- context [digit_val ?c] =>
        let v := eval vm_compute in (digit_val c) in change (digit_val c) with v
    end;
    match goal with
    | |- context [Z.of_N (DecimalPos.Unsigned.of_lu ?e) * _] =>
        let v := eval vm_compute in (Z.of_N (DecimalPos.Unsigned.of_lu e)) in
        change (Z.of_N (DecimalPos.Unsigned.of_lu e)) with v
    end;
    change (Z.of_N 10) with 10;
    match goal with
    | |- (?a, ?b, ?c) = (?a', ?b', ?c) =>
        assert (Ea : a = a') by ring;
        assert (Eb : b = b') by lia;
        rewrite Ea, Eb; reflexivity
    end.
Qed.

(** The decimal digits of [n], read back, give [n]. *)
Lemma read_digits_dec_string (n : Z) :
  0 <= n ->
  read_digits (dec_string n) 0 0
  = (n, Z.of_nat (String.length (dec_string n)), "").
Proof.
  intros Hn. unfold dec_string, NilZero.string_of_uint.
  assert (Hvalue : Z.of_N (DecimalPos.Unsigned.of_lu
                             (Decimal.rev (N.to_uint (Z.to_N n)))) = n).
  { rewrite <- DecimalPos.Unsigned.of_uint_alt.
    change (Pos.of_uint (N.to_uint (Z.to_N n)))
      with (N.of_uint (N.to_uint (Z.to_N n))).
    rewrite DecimalN.Unsigned.of_to. apply Z2N.id, Hn. }
  assert (Hnil : N.to_uint (Z.to_N n) <> Decimal.Nil).
  { destruct (Z.to_N n); [discriminate | apply DecimalPos.Unsigned.to_uint_nonnil]. }
  destruct (N.to_uint (Z.to_N n)) as [|d|d|d|d|d|d|d|d|d|d] eqn:Hd;
    [contradiction | ..];
    rewrite read_digits_string_of_uint, Hvalue; f_equal; f_equal; lia.
Qed.

Lemma read_digits_padded (len : nat) (n : Z) :
  0 <= n ->
  read_digits (pad_left len (dec_string n)) 0 0
  = (n, Z.of_nat (String.length (pad_left len (dec_string n))), "").
Proof.
  intros Hn. unfold pad_left.
  set (k := (len - String.length (dec_string n))%nat).
  rewrite (read_digits_app (zeros k) (dec_string n) 0 0)
    by (rewrite length_zeros; apply read_digits_zeros).
  rewrite (read_digits_dec_string n Hn), length_append, Nat2Z.inj_add.
  reflexivity.
Qed.

Lemma substring_all (s : string) : String.substring 0 (String.length s) s = s.
Proof. induction s as [|c s IH]; cbn; [reflexivity | rewrite IH; reflexivity]. Qed.

Lemma substring_split (s : string) : forall k : nat,
  (k <= String.length s)%nat ->
  s = String.substring 0 k s ++ String.substring k (String.length s - k) s.
Proof.
  induction s as [|c s IH]; intros k Hk.
  - cbn in Hk. assert (k = 0%nat) as -> by lia. reflexivity.
  - destruct k as [|k].
    + rewrite Nat.sub_0_r, substring_all. reflexivity.
    + cbn [String.substring append String.length Nat.sub].
      f_equal. apply IH. cbn in Hk. lia.
Qed.

(** Below [10^21], [toFixed(2)] of a non-negative number writes the
    nearest number of hundredths, with two decimals. *)
Lemma toFixed_shows_two_decimals (z : Z) :
  0 <= z -> z < 10 ^ 21 * 2 ^ unit_exp ->
  Spec.shows_two_decimals (Fin z) (toFixed 2 (Fin z)).
Proof.
  intros Hz Hsmall. split; [exact Hz|].
  assert (Hunit : 0 < 2 ^ unit_exp) by (apply Z.pow_pos_nonneg; unfold unit_exp; lia).
  set (n := (2 * z * 100 + 2 ^ unit_exp) / 2 ^ (unit_exp + 1)).
  assert (Hpow : 2 ^ (unit_exp + 1) = 2 * 2 ^ unit_exp)
    by (apply Z.pow_succ_r; unfold unit_exp; lia).
  assert (Hn : 0 <= n).
  { apply Z.div_pos; [|rewrite Hpow]; lia. }
  exists n. split.
  - unfold toFixed.
    destruct (Z.ltb_spec z 0) as [Hneg | _]; [lia|].
    rewrite (Z.abs_eq z Hz).
    destruct (Z.leb_spec (10 ^ 21 * 2 ^ unit_exp) z) as [Hbig | _]; [lia|].
    cbv beta iota zeta.
    change (10 ^ Z.of_nat 2) with 100. fold n.
    change ("" ++ ?t) with t.
    set (m := pad_left (2 + 1) (dec_string n)).
    pose proof (length_pad_left (2 + 1) (dec_string n)) as Hlen. fold m in Hlen.
    pose proof (read_digits_padded (2 + 1) n Hn) as Hm. fold m in Hm.
    set (k := (String.length m - 2)%nat).
    assert (Hk : (k <= String.length m)%nat) by (subst k; lia).
    pose proof (substring_split m k Hk) as Hsplit.
    replace (String.length m - k)%nat with 2%nat in Hsplit
      by (subst k; cbn [Nat.add] in Hlen; lia).
    set (whole := String.substring 0 k m) in *.
    set (fraction := String.substring k 2 m) in *.
    assert (Hwhole_len : String.length whole = k)
      by (apply length_substring; subst k; lia).
    assert (Hfraction_len : String.length fraction = 2%nat)
      by (apply length_substring; subst k; lia).
    rewrite Hsplit in Hm.
    destruct (read_digits_split whole fraction 0 n Hm) as (w & Hw & Hf).
    unfold Spec.read_two_decimals.
    rewrite (read_digits_app whole ("." ++ fraction) 0 w Hw).
    change ("." ++ fraction) with (String "." fraction).
    cbn [read_digits]. change (is_digit ".") with false. cbv iota.
    rewrite Hf, Hwhole_len, Hfraction_len.
    replace (0 <? Z.of_nat k + 0) with true
      by (symmetry; apply Z.ltb_lt; subst k; cbn [Nat.add] in Hlen; lia).
    reflexivity.
  - pose proof (Z.mul_div_le (2 * z * 100 + 2 ^ unit_exp) (2 ^ (unit_exp + 1))) as Hlow.
    pose proof (Z.mul_succ_div_gt (2 * z * 100 + 2 ^ unit_exp) (2 ^ (unit_exp + 1)))
      as Hhigh.
    fold n in Hlow, Hhigh. rewrite Hpow in Hlow, Hhigh.
    specialize (Hlow ltac:(lia)). specialize (Hhigh ltac:(lia)).
    set (P := 2 ^ unit_exp) in *. nia.
Qed.

(** *** Sums of non-negative numbers *)

Lemma round64_nonneg (z : Z) : 0 <= z -> le zero (round64 z) = true.
Proof.
  intros Hz. destruct (Z.eq_dec z 0) as [-> | Hne]; [reflexivity|].
  unfold round64. destruct (Z.ltb_spec z 0) as [Hneg | _]; [lia|].
  destruct (round_ratio_pos (Z.abs z)) as [(n & -> & Hn) | ->]; [lia | |].
  - cbn. apply Z.leb_le. lia.
  - reflexivity.
Qed.

Lemma add_nonneg (x y : number) :
  le zero x = true -> le zero y = true -> le zero (add x y) = true.
Proof.
  destruct x as [|[]|a], y as [|[]|b]; cbn; try discriminate; try reflexivity.
  intros Ha Hb. apply Z.leb_le in Ha, Hb. apply round64_nonneg. lia.
Qed.

Lemma gt_zero_nonneg (x : number) : gt x zero = true -> le zero x = true.
Proof. by_cases_on_numbers. Qed.

(* ===================================================================== *)
(** ** Facts about sorting *)
(* ===================================================================== *)

Section SortFacts.
Context {A : Type}.
Variable comparefn : A -> A -> number.

Lemma insert_perm (x : A) (l : list A) :
  Permutation (x :: l) (JsArray.insert comparefn x l).
Proof.
  induction l as [|y l IH]; cbn.
  - apply Permutation_refl.
  - destruct (JsArray.keeps_before comparefn x y).
    + apply Permutation_refl.
    + eapply perm_trans; [apply perm_swap|]. apply perm_skip, IH.
Qed.

(** Sorting only reorders. *)
Lemma sort_perm (l : list A) : Permutation l (JsArray.sort comparefn l).
Proof.
  induction l as [|x l IH]; cbn.
  - apply perm_nil.
  - eapply perm_trans; [apply perm_skip, IH | apply insert_perm].
Qed.

(** A comparator of the form [key(b) - key(a)], on keys that are
    numbers. *)
Variable key : A -> number.
Hypothesis comparefn_key : forall a b, comparefn a b = sub (key b) (key a).

Let is_number (x : A) : Prop := isNaN (key x) = false.
Let descending (a b : A) : Prop := ge (key a) (key b) = true.

Lemma keeps_before_key (x y : A) :
  is_number x -> is_number y ->
  JsArray.keeps_before comparefn x y = negb (lt (key x) (key y)).
Proof.
  intros Hx Hy. unfold JsArray.keeps_before.
  rewrite comparefn_key, sub_gt_zero by assumption. reflexivity.
Qed.

Lemma insert_descending (x : A) (l : list A) :
  is_number x -> Forall is_number l ->
  StronglySorted descending l ->
  StronglySorted descending (JsArray.insert comparefn x l).
Proof.
  intros Hx Hl Hs. induction Hs as [|y l Hs IH Hy]; cbn.
  - constructor; constructor.
  - inversion Hl as [|? ? Hny Hnl]; subst.
    rewrite keeps_before_key by assumption.
    destruct (lt (key x) (key y)) eqn:Hlt; cbn.
    + constructor; [apply IH; assumption|].
      apply Forall_forall. intros z Hz.
      apply (Permutation_in _ (Permutation_sym (insert_perm x l))) in Hz.
      destruct Hz as [<- | Hz].
      * apply lt_ge, Hlt.
      * rewrite Forall_forall in Hy. apply Hy, Hz.
    + assert (Hxy : descending x y) by (apply lt_false_ge; assumption).
      constructor; [constructor; assumption|].
      constructor; [assumption|].
      eapply Forall_impl; [|exact Hy].
      intros z Hz. eapply ge_trans; eassumption.
Qed.

Lemma sort_descending (l : list A) :
  Forall is_number l -> StronglySorted descending (JsArray.sort comparefn l).
Proof.
  induction l as [|x l IH]; cbn; intros Hl.
  - constructor.
  - inversion Hl; subst. apply insert_descending; auto.
    eapply Permutation_Forall; [apply sort_perm | assumption].
Qed.
End SortFacts.

(* ===================================================================== *)
(** ** The debtor list *)
(* ===================================================================== *)

Import QuickStats.

Lemma le_zero_not_gt (x : number) : le x zero = true -> gt x zero = false.
Proof. by_cases_on_numbers. Qed.

Lemma NaN_not_gt (x : number) : isNaN x = true -> gt x zero = false.
Proof. by_cases_on_numbers. Qed.

(** The filter of the code and the specification's wording agree: the
    empty string, the one present value the truthiness test rejects, does
    not parse to a number. *)
Lemma is_debtor_positive_debt (c : Customer) :
  is_debtor c = Spec.has_positive_debt c.
Proof.
  unfold is_debtor, Spec.has_positive_debt.
  destruct (totalDebt c) as [t|]; [|reflexivity].
  destruct (String.eqb_spec t ""); [subst; reflexivity | reflexivity].
Qed.

Lemma in_debtorCustomers (order : SortOrder) (customers : list Customer) (c : Customer) :
  In c (debtorCustomers order customers) <-> In c customers /\ is_debtor c = true.
Proof.
  unfold debtorCustomers. rewrite <- filter_In. split; intros H.
  - eapply Permutation_in; [apply Permutation_sym, sort_perm | exact H].
  - eapply Permutation_in; [apply sort_perm | exact H].
Qed.

Lemma is_debtor_inv (c : Customer) :
  is_debtor c = true ->
  exists t, totalDebt c = Some t /\ t <> "" /\ gt (parseFloat t) zero = true.
Proof.
  unfold is_debtor. destruct (totalDebt c) as [t|]; [|discriminate].
  destruct (String.eqb_spec t ""); [discriminate|].
  cbn [negb andb]. intros H. exists t. auto.
Qed.

(** C2. The derived debtor list holds exactly the fetched records whose
    [totalDebt] is present and parses to a value strictly greater than
    zero, each as often as it was fetched; a record whose [totalDebt] is
    absent, unparsable, zero or negative is not in it. *)
Theorem debtorCustomers_exactly_positive_debt
    (order : SortOrder) (customers : list Customer) :
  Permutation (debtorCustomers order customers)
              (filter Spec.has_positive_debt customers)
  /\ (forall c, In c (debtorCustomers order customers) <->
                In c customers /\
                exists t, totalDebt c = Some t /\ gt (parseFloat t) zero = true)
  /\ (forall c, totalDebt c = None \/
                (exists t, totalDebt c = Some t /\
                           (isNaN (parseFloat t) = true \/ le (parseFloat t) zero = true)) ->
                ~ In c (debtorCustomers order customers)).
Proof.
  assert (Hin : forall c, In c (debtorCustomers order customers) <->
                In c customers /\
                exists t, totalDebt c = Some t /\ gt (parseFloat t) zero = true).
  { intros c. rewrite in_debtorCustomers, is_debtor_positive_debt.
    unfold Spec.has_positive_debt. split; intros [Hc H]; split; try assumption.
    - destruct (totalDebt c) as [t|]; [|discriminate]. exists t. auto.
    - destruct H as (t & -> & H). exact H. }
  split; [|split].
  - unfold debtorCustomers.
    rewrite (filter_ext _ _ is_debtor_positive_debt).
    apply Permutation_sym, sort_perm.
  - exact Hin.
  - intros c Hc Hmember. apply Hin in Hmember.
    destruct Hmember as (_ & t & Ht & Hpos).
    destruct Hc as [Hc | (t' & Ht' & Hbad)]; [congruence|].
    assert (t' = t) by congruence. subst t'.
    destruct Hbad as [Hbad | Hbad].
    + apply NaN_not_gt in Hbad. congruence.
    + apply le_zero_not_gt in Hbad. congruence.
Qed.

Lemma debtorCustomers_exactly_positive_debt_witness :
  In Samples.ali (debtorCustomers highest [Samples.settled; Samples.ali])
  /\ ~ In Samples.settled (debtorCustomers highest [Samples.settled; Samples.ali]).
Proof.
  destruct (debtorCustomers_exactly_positive_debt highest
              [Samples.settled; Samples.ali]) as (_ & Hin & Hout).
  split.
  - apply (proj2 (Hin Samples.ali)). split; [right; left; reflexivity|].
    exists "1500.00". split; [reflexivity | vm_compute; reflexivity].
  - apply (Hout Samples.settled). right. exists "0". split; [reflexivity|].
    right. vm_compute. reflexivity.
Defined.

(** *** Order *)

Lemma debtors_have_number_debt (customers : list Customer) :
  Forall (fun c => isNaN (Spec.debt_value c) = false) (filter is_debtor customers).
Proof.
  apply Forall_forall. intros c Hc. apply filter_In in Hc.
  destruct Hc as [_ Hc]. apply is_debtor_inv in Hc.
  destruct Hc as (t & Ht & _ & Hpos).
  unfold Spec.debt_value. rewrite Ht. cbn [or_default].
  apply gt_zero_not_NaN, Hpos.
Qed.

(** X1. Sorting by [highest] gives non-increasing parsed debts, whatever
    the fetched records. *)
Lemma highest_non_increasing (customers : list Customer) :
  Spec.non_increasing Spec.debt_value (debtorCustomers highest customers).
Proof.
  apply StronglySorted_Sorted.
  apply (sort_descending (compare_debtors highest) Spec.debt_value).
  - reflexivity.
  - apply debtors_have_number_debt.
Qed.

(** X2. Sorting by [newest] gives non-increasing timestamps when every
    debtor has a [createdAt] that parses. *)
Lemma newest_non_increasing_when_dated (customers : list Customer) :
  Forall (fun c => isNaN (Spec.timestamp c) = false) (filter is_debtor customers) ->
  Spec.non_increasing Spec.timestamp (debtorCustomers newest customers).
Proof.
  intros Hdated. apply StronglySorted_Sorted.
  apply (sort_descending (compare_debtors newest) Spec.timestamp).
  - reflexivity.
  - exact Hdated.
Qed.

Lemma newest_non_increasing_when_dated_witness :
  debtorCustomers newest [Samples.older; Samples.newer] = [Samples.newer; Samples.older]
  /\ Spec.non_increasing Spec.timestamp
       (debtorCustomers newest [Samples.older; Samples.newer]).
Proof.
  split; [vm_compute; reflexivity|].
  apply (newest_non_increasing_when_dated [Samples.older; Samples.newer]).
  apply Forall_forall. intros c Hc. vm_compute in Hc.
  destruct Hc as [<- | [<- | []]]; vm_compute; reflexivity.
Defined.

(** C3. With a debtor whose [createdAt] is absent, sorting by [newest]
    leaves a later record behind an earlier one: the comparator's [NaN]
    makes the undated record equal to both its neighbours, so the three
    stay as fetched, and the timestamps (the missing one read as the epoch
    start) are not non-increasing, although an order exists in which they
    are. *)
Theorem newest_order_broken_by_missing_date :
  debtorCustomers newest [Samples.older; Samples.undated; Samples.newer]
    = [Samples.older; Samples.undated; Samples.newer]
  /\ ~ Spec.non_increasing Spec.timestamp_or_epoch
         (debtorCustomers newest [Samples.older; Samples.undated; Samples.newer])
  /\ Spec.non_increasing Spec.timestamp_or_epoch
         [Samples.newer; Samples.older; Samples.undated].
Proof.
  assert (Heq : debtorCustomers newest [Samples.older; Samples.undated; Samples.newer]
                = [Samples.older; Samples.undated; Samples.newer])
    by (vm_compute; reflexivity).
  split; [exact Heq|]. rewrite Heq. split.
  - intros Hs. inversion Hs as [|? ? Htail _]; subst.
    inversion Htail as [|? ? _ Hhd]; subst.
    inversion Hhd as [|? ? Hge]; subst.
    vm_compute in Hge. discriminate.
  - repeat constructor.
Qed.

(* ===================================================================== *)
(** ** The payment flow *)
(* ===================================================================== *)

Lemma gt_zero_not_le (x : number) : gt x zero = true -> le x zero = false.
Proof. by_cases_on_numbers. Qed.

Lemma gt_zero_not_empty (t : string) : gt (parseFloat t) zero = true -> t <> "".
Proof. intros H ->. discriminate H. Qed.

Lemma le_zero_not_empty (t : string) : le (parseFloat t) zero = true -> t <> "".
Proof. intros H ->. discriminate H. Qed.

(** A valid submission: the request sent and the state left. *)
Lemma handlePayment_submits (currency : string) (s : State) (c : Customer) :
  selectedCustomer s = Some c ->
  gt (parseFloat (paymentAmount s)) zero = true ->
  fst (fire (handlePayment currency) s)
    = mkState (sortOrder s) (showPaymentModal s) (selectedCustomer s)
              (paymentAmount s) true
  /\ snd (fire (handlePayment currency) s)
     = [ApiRequest "POST" ("/api/customers/" ++ id c ++ "/payment")
                   (mkBody (parseFloat (paymentAmount s)) currency)].
Proof.
  destruct s as [order open selected text pending].
  unfold fire, handlePayment.
  cbn [selectedCustomer paymentAmount sortOrder showPaymentModal isPending].
  intros -> Hgt.
  destruct (String.eqb_spec text "") as [He | _].
  - apply gt_zero_not_empty in Hgt. contradiction.
  - rewrite (gt_zero_not_le _ Hgt). split; reflexivity.
Qed.

(** C1, as the code has it.  [handlePayment] returns at once, with no
    request and no notification, when no customer is selected or the amount
    field is empty; with a customer selected and an amount that parses to
    zero or less it issues no request and shows the validation
    notification; with a customer selected and an amount that parses to
    more than zero it issues exactly one payment request, for the selected
    customer's id, with the parsed amount and the active currency. *)
Theorem handlePayment_cases (currency : string) (s : State) :
  (selectedCustomer s = None \/ paymentAmount s = "" ->
     fire (handlePayment currency) s = (s, []))
  /\ (forall c, selectedCustomer s = Some c ->
        le (parseFloat (paymentAmount s)) zero = true ->
        fire (handlePayment currency) s = (s, [validation_toast]))
  /\ (forall c, selectedCustomer s = Some c ->
        gt (parseFloat (paymentAmount s)) zero = true ->
        fire (handlePayment currency) s =
          (mkState (sortOrder s) (showPaymentModal s) (selectedCustomer s)
                   (paymentAmount s) true,
           [ApiRequest "POST" ("/api/customers/" ++ id c ++ "/payment")
                       (mkBody (parseFloat (paymentAmount s)) currency)])).
Proof.
  destruct s as [order open selected text pending].
  unfold fire, handlePayment.
  cbn [selectedCustomer paymentAmount sortOrder showPaymentModal isPending].
  split; [|split].
  - intros [-> | ->]; [reflexivity|].
    destruct selected; reflexivity.
  - intros c -> Hle.
    destruct (String.eqb_spec text "") as [He | _].
    + apply le_zero_not_empty in Hle. contradiction.
    + rewrite Hle. reflexivity.
  - intros c -> Hgt.
    destruct (String.eqb_spec text "") as [He | _].
    + apply gt_zero_not_empty in Hgt. contradiction.
    + rewrite (gt_zero_not_le _ Hgt). reflexivity.
Qed.

Lemma handlePayment_cases_witness :
  snd (fire (handlePayment "USD") Samples.paying_ali)
    = [ApiRequest "POST" "/api/customers/abc123/payment"
                  (mkBody (parseFloat "500") "USD")].
Proof.
  destruct (handlePayment_cases "USD" Samples.paying_ali) as (_ & _ & H).
  rewrite (H Samples.ali); reflexivity.
Defined.

(** With no customer selected the action aborts without any
    notification. *)
Lemma handlePayment_silent_without_customer :
  selectedCustomer Samples.nobody_selected = None
  /\ snd (fire (handlePayment "USD") Samples.nobody_selected) = []
  /\ ~ In validation_toast (snd (fire (handlePayment "USD") Samples.nobody_selected)).
Proof.
  split; [reflexivity|]. split; [reflexivity|]. intros [].
Qed.

(** An amount that does not parse passes the [amount <= 0] test: the
    request goes out with [NaN]. *)
Example handlePayment_unparsable_amount :
  snd (fire (handlePayment "USD") (mkState highest true (Some Samples.ali) "abc" false))
    = [ApiRequest "POST" "/api/customers/abc123/payment" (mkBody NaN "USD")].
Proof. reflexivity. Qed.



(** The amount field stays editable while the request is in flight, and
    the notification reads the field: after 500 is sent and the field is
    changed to 700, the notification says 700. *)
Example edited_draft_shown_as_paid :
  let submitted := fire (handlePayment "USD") Samples.paying_ali in
  let edited := fire (fun _ => changeAmount "700") (fst submitted) in
  let settled := fire (settle "USD" (Response true (Some Samples.paid_1000)))
                      (fst edited) in
  snd submitted
    = [ApiRequest "POST" "/api/customers/abc123/payment"
                  (mkBody (parseFloat "500") "USD")]
  /\ In (Toast "تم السداد بنجاح" "تم دفع 700 USD. الرصيد المتبقي: 1000.00 USD" None)
        (snd settled).
Proof.
  split; [reflexivity|].
  vm_compute. right. right. right. left. reflexivity.
Qed.


(** The ways [mutationFn] throws: [apiRequest] throws, the response is
    not OK, or its body cannot be read. *)
Lemma mutationFn_fails_iff (o : ApiOutcome) :
  mutationFn_result o = None <->
  o = Threw \/ (exists json, o = Response false json) \/ o = Response true None.
Proof.
  split.
  - destruct o as [|[] [data|]]; cbn; intros H; try discriminate H; eauto.
  - intros [-> | [(json & ->) | ->]]; reflexivity.
Qed.

(** C5. Whenever the payment fails, that is whenever [mutationFn] throws
    (a thrown request, a response that is not OK, a body that cannot be
    read), the failure notification is shown and nothing else is issued;
    the dialog flag, the selected customer and the draft amount keep their
    values, so an open dialog stays open. *)
Theorem payment_failure_keeps_dialog
    (currency : string) (s : State) (o : ApiOutcome) :
  mutationFn_result o = None ->
  snd (fire (settle currency o) s)
    = [Toast "خطأ في السداد" "فشل في معالجة السداد" (Some "destructive")]
  /\ showPaymentModal (fst (fire (settle currency o) s)) = showPaymentModal s
  /\ selectedCustomer (fst (fire (settle currency o) s)) = selectedCustomer s
  /\ paymentAmount (fst (fire (settle currency o) s)) = paymentAmount s
  /\ isPending (fst (fire (settle currency o) s)) = false.
Proof.
  intros Hfail. unfold fire, settle. rewrite Hfail. repeat split; reflexivity.
Qed.

Lemma payment_failure_keeps_dialog_witness :
  (showPaymentModal
     (fst (fire (settle "USD" (Response false None)) Samples.paying_ali_pending)) = true
   /\ paymentAmount
     (fst (fire (settle "USD" (Response false None)) Samples.paying_ali_pending)) = "500")
  /\ snd (fire (settle "USD" Threw) Samples.paying_ali_pending)
     = [Toast "خطأ في السداد" "فشل في معالجة السداد" (Some "destructive")]
  /\ selectedCustomer
       (fst (fire (settle "USD" (Response true None)) Samples.paying_ali_pending))
     = Some Samples.ali.
Proof.
  split; [|split].
  - destruct (payment_failure_keeps_dialog "USD" Samples.paying_ali_pending
                (Response false None)) as (_ & Hopen & _ & Hamount & _);
      [reflexivity|].
    rewrite Hopen, Hamount. split; reflexivity.
  - apply (payment_failure_keeps_dialog "USD" Samples.paying_ali_pending Threw).
    reflexivity.
  - destruct (payment_failure_keeps_dialog "USD" Samples.paying_ali_pending
                (Response true None)) as (_ & _ & Hselected & _);
      [reflexivity|].
    rewrite Hselected. reflexivity.
Defined.

(** C8. Opening the payment dialog for a customer, as the pay action of
    its row does, selects that customer, empties the draft amount and opens
    the dialog, whatever the state was, and issues nothing; the next render
    shows the dialog open with an empty amount field. *)
Theorem openPaymentModal_resets_draft
    (currency : string) (c : Customer) (s : State) :
  fire (fun _ => openPaymentModal c) s
    = (mkState (sortOrder s) true (Some c) "" (isPending s), [])
  /\ row_pay (render_row currency c) = openPaymentModal c
  /\ forall customers isLoading,
       let v := render currency customers isLoading
                       (fst (fire (fun _ => openPaymentModal c) s)) in
       dialog_open v = true
       /\ option_map input_value (dialog_body v) = Some ""
       /\ option_map remaining_line (dialog_body v) = Some None.
Proof.
  split; [reflexivity|]. split; [reflexivity|].
  intros customers isLoading v. subst v.
  unfold render, render_dialog_body. cbn. auto.
Qed.

(** C9. While the mutation is pending, a rendered dialog body has its
    confirm control disabled and labelled as busy, and its cancel control
    disabled. *)
Theorem pending_disables_controls
    (currency : string) (customers : list Customer) (isLoading : bool)
    (s : State) (body : DialogBody) :
  isPending s = true ->
  dialog_body (render currency customers isLoading s) = Some body ->
  confirm_disabled body = true
  /\ confirm_label body = busy_label
  /\ cancel_disabled body = true.
Proof.
  intros Hpending. unfold render, render_dialog_body. cbn [dialog_body].
  destruct (selectedCustomer s); [|discriminate].
  intros [= <-]. cbn [confirm_disabled confirm_label cancel_disabled].
  rewrite Hpending, orb_true_r. auto.
Qed.

Lemma pending_disables_controls_witness :
  exists body,
    dialog_body (render "USD" [Samples.ali] false Samples.paying_ali_pending) = Some body
    /\ confirm_disabled body = true
    /\ confirm_label body = busy_label
    /\ cancel_disabled body = true.
Proof.
  eexists. split; [reflexivity|].
  apply (pending_disables_controls "USD" [Samples.ali] false Samples.paying_ali_pending);
    reflexivity.
Defined.

(** The specification's scenario: with a debt of 1500.00 and 500 entered
    the dialog previews 1000.00 left. *)
Example preview_of_remaining_debt :
  option_map remaining_line
    (dialog_body (render "USD" [Samples.ali] false Samples.paying_ali))
    = Some (Some "1000.00 USD").
Proof. vm_compute. reflexivity. Qed.

(* ===================================================================== *)
(** ** Rows and footer *)
(* ===================================================================== *)

Lemma lt_not_ge (x y : number) : lt x y = true -> ge x y = false.
Proof. by_cases_on_numbers. Qed.

Lemma lt_trans (x y z : number) :
  lt x y = true -> lt y z = true -> lt x z = true.
Proof. by_cases_on_numbers. Qed.

Lemma truthy_string_Some (t : string) : t <> "" -> truthy_string (Some t) = true.
Proof.
  intros Ht. cbn. destruct (String.eqb_spec t ""); [contradiction | reflexivity].
Qed.

(** C6, as the code has it.  The colour of a debt amount is the neutral
    tone when the debt is absent or the empty string; for any other debt it
    is one of three levels by the parsed value: the highest from 5000 on,
    the middle one from 1000 up to 5000, the lowest below 1000, zero
    included. *)
Theorem getDebtColor_tiers (debt : option string) :
  (truthy_string debt = false -> getDebtColor debt = "text-slate-500")
  /\ (forall t, debt = Some t -> t <> "" ->
        (ge (parseFloat t) (of_int 5000) = true ->
           getDebtColor debt = "text-red-600")
        /\ (ge (parseFloat t) (of_int 1000) = true ->
            lt (parseFloat t) (of_int 5000) = true ->
              getDebtColor debt = "text-orange-600")
        /\ (lt (parseFloat t) (of_int 1000) = true ->
              getDebtColor debt = "text-yellow-600")).
Proof.
  unfold getDebtColor. split.
  - intros ->. reflexivity.
  - intros t -> Ht. rewrite (truthy_string_Some t Ht). cbn [negb or_default].
    split; [|split].
    + intros ->. reflexivity.
    + intros H1 H2. rewrite (lt_not_ge _ _ H2), H1. reflexivity.
    + intros H.
      assert (H5 : lt (parseFloat t) (of_int 5000) = true)
        by (apply (lt_trans _ _ _ H); vm_compute; reflexivity).
      rewrite (lt_not_ge _ _ H5), (lt_not_ge _ _ H). reflexivity.
Qed.

Lemma getDebtColor_tiers_witness :
  getDebtColor (Some "1500.00") = "text-orange-600"
  /\ getDebtColor (Some "0") = "text-yellow-600"
  /\ getDebtColor None = "text-slate-500".
Proof.
  split; [|split].
  - destruct (getDebtColor_tiers (Some "1500.00")) as (_ & H).
    destruct (H "1500.00") as (_ & Horange & _);
      [reflexivity | discriminate |].
    apply Horange; vm_compute; reflexivity.
  - destruct (getDebtColor_tiers (Some "0")) as (_ & H).
    destruct (H "0") as (_ & _ & Hyellow);
      [reflexivity | discriminate |].
    apply Hyellow; vm_compute; reflexivity.
  - destruct (getDebtColor_tiers None) as (H & _).
    apply H; reflexivity.
Defined.

(** A debt of zero, written ["0"], is present: it gets the lowest level,
    not the neutral tone. *)
Lemma zero_debt_not_neutral :
  parseFloat "0" = zero
  /\ getDebtColor (totalDebt Samples.settled) = "text-yellow-600"
  /\ getDebtColor (totalDebt Samples.settled) <> "text-slate-500".
Proof.
  split; [vm_compute; reflexivity|].
  split; [vm_compute; reflexivity|].
  vm_compute. discriminate.
Qed.

(** The footer's fold and the specification's sum agree on debtors. *)
Lemma total_of_debt_sum (debtors : list Customer) :
  Forall (fun c => is_debtor c = true) debtors ->
  total_of debtors = Spec.debt_sum debtors.
Proof.
  unfold total_of, Spec.debt_sum. generalize zero.
  induction debtors as [|c l IH]; intros acc Hall; [reflexivity|].
  inversion Hall as [|? ? Hc Hl]; subst. cbn [fold_left].
  destruct (is_debtor_inv c Hc) as (t & Ht & _ & Hpos).
  rewrite Ht. cbn [or_default Spec.parsed_or_zero].
  rewrite (gt_zero_not_NaN _ Hpos). apply IH, Hl.
Qed.

Lemma debtorCustomers_all_debtors (order : SortOrder) (customers : list Customer) :
  Forall (fun c => is_debtor c = true) (debtorCustomers order customers).
Proof.
  apply Forall_forall. intros c Hc. apply in_debtorCustomers in Hc. apply Hc.
Qed.

Lemma debt_sum_nonneg (debtors : list Customer) :
  Forall (fun c => is_debtor c = true) debtors ->
  le zero (Spec.debt_sum debtors) = true.
Proof.
  unfold Spec.debt_sum. intros Hall.
  enough (Hany : forall acc, le zero acc = true ->
            le zero (fold_left (fun sum customer =>
                                  add sum (Spec.parsed_or_zero (totalDebt customer)))
                               debtors acc) = true)
    by (apply Hany; reflexivity).
  induction debtors as [|c l IH]; intros acc Hacc; [exact Hacc|].
  inversion Hall as [|? ? Hc Hl]; subst. cbn [fold_left].
  apply (IH Hl). apply add_nonneg; [exact Hacc|].
  destruct (is_debtor_inv c Hc) as (t & Ht & _ & Hpos).
  rewrite Ht. cbn [Spec.parsed_or_zero].
  rewrite (gt_zero_not_NaN _ Hpos). apply gt_zero_nonneg, Hpos.
Qed.

(** C7, as the code has it.  The footer is rendered exactly when the
    debtor list is not empty; it then shows the number of debtors and the
    sum of their parsed debts, an unparsable debt counting as zero, written
    by [toFixed(2)]: to two decimal places, the nearest hundredth, whenever
    that sum is below [10^21]. *)
Theorem footer_shows_count_and_total
    (currency : string) (customers : list Customer) (isLoading : bool) (s : State) :
  (footer (render currency customers isLoading s) = None <->
   debtorCustomers (sortOrder s) customers = [])
  /\ (debtorCustomers (sortOrder s) customers <> [] ->
      exists text,
        footer (render currency customers isLoading s)
          = Some (mkFooter (List.length (debtorCustomers (sortOrder s) customers))
                           (text ++ " " ++ currency))
        /\ text = toFixed 2 (Spec.debt_sum (debtorCustomers (sortOrder s) customers))
        /\ (Spec.below_1e21 (Spec.debt_sum (debtorCustomers (sortOrder s) customers)) ->
            Spec.shows_two_decimals
              (Spec.debt_sum (debtorCustomers (sortOrder s) customers)) text)).
Proof.
  unfold render. cbn [footer]. unfold render_footer.
  pose proof (debtorCustomers_all_debtors (sortOrder s) customers) as Hall.
  pose proof (debt_sum_nonneg _ Hall) as Hsum.
  rewrite (total_of_debt_sum _ Hall).
  destruct (debtorCustomers (sortOrder s) customers) as [|c l] eqn:Hd.
  - split; [split; reflexivity|]. intros H. contradiction H. reflexivity.
  - change (0 <? List.length (c :: l))%nat with true. cbv iota.
    split; [split; discriminate|]. intros _.
    exists (toFixed 2 (Spec.debt_sum (c :: l))).
    split; [reflexivity|]. split; [reflexivity|].
    destruct (Spec.debt_sum (c :: l)) as [|negative|z]; cbn [Spec.below_1e21];
      try contradiction.
    intros Hsmall. apply Z.leb_le in Hsum.
    apply toFixed_shows_two_decimals; lia.
Qed.

Lemma footer_shows_count_and_total_witness :
  footer (render "USD" [Samples.settled; Samples.tiny_debtor; Samples.ali] false
                 QuickStats.initial)
    = Some (mkFooter 2 "1500.00 USD")
  /\ Spec.shows_two_decimals
       (Spec.debt_sum (debtorCustomers highest
                         [Samples.settled; Samples.tiny_debtor; Samples.ali]))
       "1500.00"
  /\ footer (render "USD" [Samples.settled] false QuickStats.initial) = None.
Proof.
  destruct (footer_shows_count_and_total "USD"
              [Samples.settled; Samples.tiny_debtor; Samples.ali] false
              QuickStats.initial) as [_ Hshown].
  destruct Hshown as (text & Hfooter & Htext & Htwo).
  { vm_compute. discriminate. }
  assert (Hvalue : text = "1500.00") by (rewrite Htext; vm_compute; reflexivity).
  split; [|split].
  - rewrite Hfooter, Hvalue. vm_compute. reflexivity.
  - rewrite <- Hvalue. apply Htwo. vm_compute. reflexivity.
  - apply (proj1 (footer_shows_count_and_total "USD" [Samples.settled] false
                    QuickStats.initial)).
    vm_compute. reflexivity.
Defined.

(** A debt of [10^21] is a debtor's debt, and the footer then writes the
    total in exponent notation: not two decimal places. *)
Lemma huge_total_not_two_decimals :
  footer (render "USD" [Samples.huge_debtor] false QuickStats.initial)
    = Some (mkFooter 1 "1e+21 USD")
  /\ Spec.read_two_decimals "1e+21" = None
  /\ ~ Spec.shows_two_decimals (Spec.debt_sum [Samples.huge_debtor]) "1e+21".
Proof.
  split; [vm_compute; reflexivity|]. split; [vm_compute; reflexivity|].
  assert (Hsum : exists z, Spec.debt_sum [Samples.huge_debtor] = Fin z)
    by (eexists; vm_compute; reflexivity).
  destruct Hsum as (z & ->).
  intros (_ & hundredths & Hread & _).
  vm_compute in Hread. discriminate Hread.
Qed.


(** C10, as the code has it.  Every record of the derived debtor list has
    a [totalDebt] that is present, not empty and parses to a strictly
    positive number; so its formatted amount is the [toFixed(2)] of that
    number and not the fallback of [formatDebt], its colour is not the
    neutral one, and its term in the footer sum is not [NaN]. *)
Theorem debtor_rows_invariant
    (order : SortOrder) (customers : list Customer) (c : Customer) :
  In c (debtorCustomers order customers) ->
  exists t,
    totalDebt c = Some t
    /\ gt (parseFloat t) zero = true
    /\ formatDebt (totalDebt c) = toFixed 2 (parseFloat t)
    /\ getDebtColor (totalDebt c) <> "text-slate-500"
    /\ isNaN (parseFloat (or_default (totalDebt c) "0")) = false.
Proof.
  intros Hc. apply in_debtorCustomers in Hc. destruct Hc as [_ Hc].
  destruct (is_debtor_inv c Hc) as (t & Ht & Hne & Hpos).
  exists t. rewrite Ht. cbn [or_default].
  pose proof (gt_zero_not_NaN _ Hpos) as Hnum.
  repeat split; try assumption.
  - unfold formatDebt. rewrite (truthy_string_Some t Hne). cbn [negb or_default].
    rewrite Hnum. reflexivity.
  - unfold getDebtColor. rewrite (truthy_string_Some t Hne). cbn [negb or_default].
    destruct (ge (parseFloat t) (of_int 5000)); [discriminate|].
    destruct (ge (parseFloat t) (of_int 1000)); discriminate.
Qed.

Lemma debtor_rows_invariant_witness :
  exists t,
    totalDebt Samples.ali = Some t
    /\ gt (parseFloat t) zero = true
    /\ formatDebt (totalDebt Samples.ali) = toFixed 2 (parseFloat t)
    /\ getDebtColor (totalDebt Samples.ali) <> "text-slate-500"
    /\ isNaN (parseFloat (or_default (totalDebt Samples.ali) "0")) = false.
Proof.
  apply (debtor_rows_invariant highest [Samples.settled; Samples.ali]).
  vm_compute. left. reflexivity.
Defined.

(** A debtor whose debt is below half a cent is shown as ["0.00"]. *)
Lemma tiny_debtor_shows_zero :
  In Samples.tiny_debtor (debtorCustomers highest [Samples.ali; Samples.tiny_debtor])
  /\ gt (parseFloat "0.001") zero = true
  /\ formatDebt (totalDebt Samples.tiny_debtor) = "0.00".
Proof.
  split; [vm_compute; right; left; reflexivity|].
  split; vm_compute; reflexivity.
Qed.

(* ===================================================================== *)
(** ** Further properties of the component *)
(* ===================================================================== *)

(** X3. The sort selector only reorders: whichever order is chosen, the
    same debtor records are listed, each as often. *)
Theorem sort_order_only_reorders (customers : list Customer) :
  Permutation (debtorCustomers newest customers) (debtorCustomers highest customers).
Proof.
  unfold debtorCustomers.
  eapply perm_trans; [apply Permutation_sym, sort_perm | apply sort_perm].
Qed.

(** X4. An amount that is not empty and does not parse is not stopped by
    the [amount <= 0] test: with a customer selected, the payment request is
    sent with [NaN] as its amount, and no notification is shown. *)
Theorem handlePayment_sends_unparsable_amount
    (currency : string) (s : State) (c : Customer) :
  selectedCustomer s = Some c ->
  paymentAmount s <> "" ->
  isNaN (parseFloat (paymentAmount s)) = true ->
  snd (fire (handlePayment currency) s)
    = [ApiRequest "POST" ("/api/customers/" ++ id c ++ "/payment")
                  (mkBody NaN currency)].
Proof.
  destruct s as [order open selected text pending].
  unfold fire, handlePayment.
  cbn [selectedCustomer paymentAmount sortOrder showPaymentModal isPending].
  intros -> Htext Hnan.
  destruct (String.eqb_spec text "") as [He | _]; [contradiction|].
  destruct (parseFloat text); try discriminate Hnan. reflexivity.
Qed.

Lemma handlePayment_sends_unparsable_amount_witness :
  snd (fire (handlePayment "USD") (mkState highest true (Some Samples.ali) "abc" false))
    = [ApiRequest "POST" "/api/customers/abc123/payment" (mkBody NaN "USD")].
Proof.
  apply (handlePayment_sends_unparsable_amount "USD"
           (mkState highest true (Some Samples.ali) "abc" false) Samples.ali).
  - reflexivity.
  - discriminate.
  - reflexivity.
Defined.

Lemma round64_negative (z : Z) :
  z < 0 ->
  (exists n, round64 z = Fin n /\ n < 0) \/ round64 z = Infinity true.
Proof.
  intros Hz. unfold round64.
  destruct (Z.ltb_spec z 0) as [_ | Hnn]; [|lia].
  destruct (round_ratio_pos (Z.abs z)) as [(n & -> & Hn) | ->]; [lia | |].
  - left. exists (- n). split; [reflexivity | lia].
  - right. reflexivity.
Qed.

Lemma toFixed_minus_sign (x y : number) :
  lt x y = true -> exists rest, toFixed 2 (sub x y) = String "-" rest.
Proof.
  destruct x as [|[]|a], y as [|[]|b]; cbn [lt andb negb]; try discriminate;
    intros Hlt; try (eexists; reflexivity).
  apply Z.ltb_lt in Hlt. unfold sub, neg, add.
  destruct (round64_negative (a + - b)) as [(n & -> & Hn) | ->]; [lia | |].
  - unfold toFixed. destruct (Z.ltb_spec n 0) as [_ | Hnn]; [|lia].
    cbv beta iota zeta.
    destruct (10 ^ 21 * 2 ^ unit_exp <=? Z.abs n); eexists; reflexivity.
  - eexists. reflexivity.
Qed.

(** X5. The preview of the remaining debt is not clamped at zero: when
    the amount entered exceeds the customer's debt, the dialog shows a
    negative remainder. *)
Theorem preview_not_clamped (currency : string) (s : State) (c : Customer) :
  selectedCustomer s = Some c ->
  paymentAmount s <> "" ->
  lt (parseFloat (or_default (totalDebt c) "0")) (parseFloat (paymentAmount s)) = true ->
  exists body rest,
    render_dialog_body currency s = Some body
    /\ remaining_line body = Some (String "-" rest).
Proof.
  intros Hc Htext Hlt. unfold render_dialog_body. rewrite Hc.
  destruct (String.eqb_spec (paymentAmount s) "") as [He | _]; [contradiction|].
  destruct (toFixed_minus_sign _ _ Hlt) as (rest & Hrest).
  eexists. exists (rest ++ " " ++ currency). split; [reflexivity|].
  cbn [remaining_line]. rewrite Hrest. reflexivity.
Qed.

Lemma preview_not_clamped_witness :
  option_map remaining_line
    (render_dialog_body "USD" (mkState highest true (Some Samples.ali) "2000" false))
    = Some (Some "-500.00 USD").
Proof.
  destruct (preview_not_clamped "USD"
              (mkState highest true (Some Samples.ali) "2000" false) Samples.ali)
    as (body & rest & Hbody & Hline).
  - reflexivity.
  - discriminate.
  - vm_compute. reflexivity.
  - vm_compute. reflexivity.
Defined.

(** X6. The "no debts" state is shown exactly when the data is there and
    no fetched record has a positive debt; while loading, four placeholders
    are shown whatever the records. *)
Theorem empty_state_iff_no_debtor
    (currency : string) (customers : list Customer) (isLoading : bool) (s : State) :
  (list_view (render currency customers isLoading s) = NoDebts <->
   isLoading = false /\
   forall c, In c customers -> Spec.has_positive_debt c = false)
  /\ (isLoading = true ->
      list_view (render currency customers isLoading s) = Placeholders 4).
Proof.
  unfold render. cbn [list_view]. unfold render_list.
  split; [|intros ->; reflexivity].
  destruct isLoading.
  - split; [discriminate | intros [H _]; discriminate H].
  - destruct (debtorCustomers (sortOrder s) customers) as [|d l] eqn:Hd.
    + split; [|reflexivity]. intros _. split; [reflexivity|].
      intros c Hc. rewrite <- is_debtor_positive_debt.
      destruct (is_debtor c) eqn:Hdebtor; [|reflexivity].
      assert (Hin : In c (debtorCustomers (sortOrder s) customers))
        by (apply in_debtorCustomers; auto).
      rewrite Hd in Hin. destruct Hin.
    + split; [discriminate|]. intros [_ Hnone].
      assert (Hin : In d (debtorCustomers (sortOrder s) customers))
        by (rewrite Hd; left; reflexivity).
      apply in_debtorCustomers in Hin. destruct Hin as [Hin Hdebtor].
      rewrite is_debtor_positive_debt, (Hnone d Hin) in Hdebtor. discriminate.
Qed.

(** X7. A debtor row whose debt is below [10^21] shows that debt to two
    decimal places, the nearest hundredth. *)
Theorem debtor_amount_two_decimals
    (order : SortOrder) (customers : list Customer) (c : Customer) :
  In c (debtorCustomers order customers) ->
  Spec.below_1e21 (Spec.debt_value c) ->
  Spec.shows_two_decimals (Spec.debt_value c) (formatDebt (totalDebt c)).
Proof.
  intros Hc. apply in_debtorCustomers in Hc. destruct Hc as [_ Hc].
  destruct (is_debtor_inv c Hc) as (t & Ht & Hne & Hpos).
  unfold Spec.debt_value, formatDebt. rewrite Ht, (truthy_string_Some t Hne).
  cbn [negb or_default]. rewrite (gt_zero_not_NaN _ Hpos).
  pose proof (gt_zero_nonneg _ Hpos) as Hnonneg.
  destruct (parseFloat t) as [|negative|z]; cbn [Spec.below_1e21]; try contradiction.
  intros Hsmall. apply Z.leb_le in Hnonneg.
  apply toFixed_shows_two_decimals; lia.
Qed.

Lemma debtor_amount_two_decimals_witness :
  Spec.shows_two_decimals (Spec.debt_value Samples.tiny_debtor)
    (formatDebt (totalDebt Samples.tiny_debtor))
  /\ formatDebt (totalDebt Samples.tiny_debtor) = "0.00".
Proof.
  split; [|vm_compute; reflexivity].
  apply (debtor_amount_two_decimals highest [Samples.ali; Samples.tiny_debtor]).
  - vm_compute. right. left. reflexivity.
  - vm_compute. reflexivity.
Defined.

(** X8. A debt that is present, not empty and does not parse is shown as
    ["0.00"], yet coloured with the lowest level, not the neutral tone. *)
Theorem unparsable_debt_display (t : string) :
  t <> "" ->
  isNaN (parseFloat t) = true ->
  formatDebt (Some t) = "0.00" /\ getDebtColor (Some t) = "text-yellow-600".
Proof.
  intros Hne Hnan. unfold formatDebt, getDebtColor.
  rewrite (truthy_string_Some t Hne). cbn [negb or_default]. rewrite Hnan.
  destruct (parseFloat t); try discriminate Hnan. split; reflexivity.
Qed.

Lemma unparsable_debt_display_witness :
  formatDebt (Some "abc") = "0.00" /\ getDebtColor (Some "abc") = "text-yellow-600".
Proof.
  apply (unparsable_debt_display "abc"); [discriminate | reflexivity].
Defined.

(** X9. After a failed payment the user can retry: the dialog state is
    such that confirming again sends the same request. *)
Theorem retry_after_failure
    (currency : string) (s : State) (c : Customer) (o : ApiOutcome) :
  selectedCustomer s = Some c ->
  gt (parseFloat (paymentAmount s)) zero = true ->
  mutationFn_result o = None ->
  snd (fire (handlePayment currency)
            (fst (fire (settle currency o) (fst (fire (handlePayment currency) s)))))
    = [ApiRequest "POST" ("/api/customers/" ++ id c ++ "/payment")
                  (mkBody (parseFloat (paymentAmount s)) currency)].
Proof.
  destruct s as [order open selected text pending].
  cbn [selectedCustomer paymentAmount]. intros Hc Hpos Hfail.
  destruct (handlePayment_submits currency
              (mkState order open selected text pending) c Hc Hpos) as [Hstate _].
  rewrite Hstate. unfold fire at 2. unfold settle. rewrite Hfail.
  exact (proj2 (handlePayment_submits currency
                  (mkState order open selected text false) c Hc Hpos)).
Qed.

Lemma retry_after_failure_witness :
  snd (fire (handlePayment "USD")
            (fst (fire (settle "USD" (Response false None))
                       (fst (fire (handlePayment "USD") Samples.paying_ali)))))
    = [ApiRequest "POST" "/api/customers/abc123/payment"
                  (mkBody (parseFloat "500") "USD")].
Proof.
  apply (retry_after_failure "USD" Samples.paying_ali Samples.ali (Response false None));
    reflexivity.
Defined.

(** X10. [handlePayment] has no guard of its own against a request in
    flight: run again while the mutation is pending, it sends the same
    request a second time.  Only the disabled confirm control prevents
    it. *)
Theorem handlePayment_no_pending_guard
    (currency : string) (s : State) (c : Customer) :
  selectedCustomer s = Some c ->
  gt (parseFloat (paymentAmount s)) zero = true ->
  isPending (fst (fire (handlePayment currency) s)) = true
  /\ snd (fire (handlePayment currency) (fst (fire (handlePayment currency) s)))
     = snd (fire (handlePayment currency) s).
Proof.
  destruct s as [order open selected text pending].
  cbn [selectedCustomer paymentAmount]. intros Hc Hpos.
  destruct (handlePayment_submits currency
              (mkState order open selected text pending) c Hc Hpos)
    as [Hstate Hrequest].
  rewrite Hrequest, Hstate. split; [reflexivity|].
  exact (proj2 (handlePayment_submits currency
                  (mkState order open selected text true) c Hc Hpos)).
Qed.

Lemma handlePayment_no_pending_guard_witness :
  snd (fire (handlePayment "USD") (fst (fire (handlePayment "USD") Samples.paying_ali)))
    = snd (fire (handlePayment "USD") Samples.paying_ali).
Proof.
  apply (handlePayment_no_pending_guard "USD" Samples.paying_ali Samples.ali);
    reflexivity.
Defined.

(** X11. [handlePayment] never closes the dialog, never changes the
    selected customer, the draft amount or the sort order, and issues at
    most one effect. *)
Theorem handlePayment_frame (currency : string) (s : State) :
  showPaymentModal (fst (fire (handlePayment currency) s)) = showPaymentModal s
  /\ selectedCustomer (fst (fire (handlePayment currency) s)) = selectedCustomer s
  /\ paymentAmount (fst (fire (handlePayment currency) s)) = paymentAmount s
  /\ sortOrder (fst (fire (handlePayment currency) s)) = sortOrder s
  /\ (List.length (snd (fire (handlePayment currency) s)) <= 1)%nat.
Proof.
  destruct s as [order open selected text pending].
  unfold fire, handlePayment.
  cbn [selectedCustomer paymentAmount sortOrder showPaymentModal isPending].
  destruct selected as [c|]; [|cbn; auto with arith].
  destruct (text =? "")%string; [cbn; auto with arith|].
  destruct (le (parseFloat text) zero); cbn; auto with arith.
Qed.

(** X12. Whenever the confirm control is rendered and enabled, confirming
    gives feedback: exactly one effect, the validation notification or the
    payment request. *)
Theorem enabled_confirm_gives_feedback
    (currency : string) (s : State) (body : DialogBody) :
  render_dialog_body currency s = Some body ->
  confirm_disabled body = false ->
  exists effect,
    snd (fire (handlePayment currency) s) = [effect]
    /\ (effect = validation_toast \/
        exists c, selectedCustomer s = Some c
                  /\ effect = payment_request currency (id c)
                                (parseFloat (paymentAmount s))).
Proof.
  destruct s as [order open selected text pending].
  unfold render_dialog_body, fire, handlePayment.
  cbn [selectedCustomer paymentAmount sortOrder showPaymentModal isPending].
  destruct selected as [c|]; [|discriminate].
  intros [= <-]. cbn [confirm_disabled]. intros Henabled.
  apply orb_false_elim in Henabled. destruct Henabled as [Htext _].
  rewrite Htext.
  destruct (le (parseFloat text) zero).
  - exists validation_toast. split; [reflexivity | left; reflexivity].
  - eexists. split; [reflexivity|]. right. exists c. split; reflexivity.
Qed.

Lemma enabled_confirm_gives_feedback_witness :
  exists effect,
    snd (fire (handlePayment "USD") Samples.paying_ali) = [effect]
    /\ (effect = validation_toast \/
        exists c, selectedCustomer Samples.paying_ali = Some c
                  /\ effect = payment_request "USD" (id c) (parseFloat "500")).
Proof.
  eapply (enabled_confirm_gives_feedback "USD" Samples.paying_ali);
    reflexivity.
Defined.
